(** * The Home page component (app/src/components/Home/index.jsx)

    A shallow embedding of the welcome page of the Cadasta platform
    front end: the [Home] view (a React class with a single [render]),
    the [mapStateToProps] selector and the [HomeContainer] obtained by
    connecting the view to the store.

    JavaScript objects are finite maps from property names to values,
    functions are values compared by reference, and code runs in a small
    monad that threads the observable world (the store and the log of
    dispatched actions) and may complete abruptly with a thrown error. *)

From stdpp Require Import gmap strings list fin_maps.

Set Warnings "-register-all".
Local Open Scope string_scope.

(** ** JavaScript values and completions *)

Module Js.

(** A function value is known by its reference.  [FRef r] is a function
    defined outside this file (an action creator, a callback of a test);
    [FDispatcher ac] is the closure [(...args) => dispatch(ac(...args))]
    that binding an action creator to the store produces. *)
Inductive FunVal : Type :=
| FRef (r : nat)
| FDispatcher (ac : FunVal).

Inductive JsVal : Type :=
| VUndefined
| VNull
| VBool (b : bool)
| VNum (n : Z)
| VStr (s : string)
| VFun (f : FunVal)
| VObj (fields : gmap string JsVal).

Inductive JsError : Type :=
| TypeError (msg : string).

Inductive Completion (A : Type) : Type :=
| Normal (a : A)
| Throw (e : JsError).
Arguments Normal {A} a.
Arguments Throw {A} e.

(** What a piece of code can observe and change besides its arguments:
    the state held by the store and the actions dispatched so far. *)
Record World : Type := mkWorld {
  store_state : JsVal;
  dispatched : list JsVal
}.

Definition JS (A : Type) : Type := World → Completion A * World.

Definition js_ret {A} (a : A) : JS A := λ w, (Normal a, w).

Definition js_bind {A B} (k : A → JS B) (c : JS A) : JS B :=
  λ w, match c w with
       | (Normal a, w') => k a w'
       | (Throw e, w') => (Throw e, w')
       end.

Definition js_throw {A} (e : JsError) : JS A := λ w, (Throw e, w).

#[export] Instance JS_ret : MRet JS := @js_ret.
#[export] Instance JS_bind : MBind JS := @js_bind.

(** [o[k]] on a plain object: an absent property reads as undefined. *)
Definition js_get (o : gmap string JsVal) (k : string) : JsVal :=
  default VUndefined (o !! k).

(** The member expression [v.k].  Reading a property of undefined or
    null throws a TypeError.  A primitive or a function is read through
    its prototype; the built-in properties found there (such as length)
    are outside this model, so such a read gives undefined. *)
Definition get_member (v : JsVal) (k : string) : JS JsVal :=
  match v with
  | VObj o => mret (js_get o k)
  | VUndefined | VNull =>
      js_throw (TypeError ("Cannot read property '" +:+ k +:+ "'"))
  | VBool _ | VNum _ | VStr _ | VFun _ => mret VUndefined
  end.

End Js.

(** ** React elements *)

Module React.
Import Js.

(** The type of an element: a host tag such as div, or a component. *)
Inductive ElemType : Type :=
| Host (tag : string)
| Component (name : string).

#[export] Instance ElemType_eq_dec : EqDecision ElemType.
Proof. solve_decision. Defined.

(** A node of the UI tree: a text child or an element with the props
    written at its JSX site and its children in source order. *)
Inductive Node : Type :=
| NText (s : string)
| NElem (type : ElemType) (props : gmap string JsVal) (children : list Node).

(** [React.createElement(type, config, ...children)]; a JSX tag without
    attributes passes null as config. *)
Definition createElement (type : ElemType)
    (config : option (gmap string JsVal)) (children : list Node) : Node :=
  NElem type (default ∅ config) children.

(** A component instance as [render] sees it through [this]. *)
Record Instance : Type := mkInstance {
  props : JsVal;
  state : JsVal
}.

Definition elem_props (n : Node) : gmap string JsVal :=
  match n with
  | NText _ => ∅
  | NElem _ ps _ => ps
  end.

Definition elem_children (n : Node) : list Node :=
  match n with
  | NText _ => []
  | NElem _ _ cs => cs
  end.

(** All elements of a tree, in document order, whose type satisfies [p]. *)
Fixpoint elements_where (p : ElemType → bool) (n : Node) : list Node :=
  match n with
  | NText _ => []
  | NElem ty _ cs =>
      (if p ty then [n] else []) ++ flat_map (elements_where p) cs
  end.

(** The text of a node: its text children, concatenated in order. *)
Fixpoint text_content (n : Node) : string :=
  match n with
  | NText s => s
  | NElem _ _ cs => foldr (λ c acc, text_content c +:+ acc) "" cs
  end.

Definition heading_tags : list string := ["h1"; "h2"; "h3"; "h4"; "h5"; "h6"].

Definition is_heading (ty : ElemType) : bool :=
  match ty with
  | Host tag => bool_decide (tag ∈ heading_tags)
  | Component _ => false
  end.

Definition is_type (t ty : ElemType) : bool := bool_decide (ty = t).

End React.

(** ** The store and its connection to a view *)

Module Redux.
Import Js React.

Section Store.
(** The root reducer and the bodies of the functions defined outside
    this file, by reference. *)
Variable reducer : JsVal → JsVal → JsVal.
Variable extern_call : nat → list JsVal → JS JsVal.

(** Modelled from the spec: the store's dispatch, which lives in redux
    and not in this repository.  The store is the process-wide state
    holder and dispatched actions are its single writer: the action is
    reduced into the state, recorded, and handed back to the caller. *)
Definition dispatch (action : JsVal) : JS JsVal :=
  λ w, (Normal action,
        {| store_state := reducer (store_state w) action;
           dispatched := dispatched w ++ [action] |}).

(** Modelled from the spec: calling a function value.  A callable
    dispatcher runs its action creator on the very arguments it was
    given and dispatches the description that comes back. *)
Fixpoint call (f : FunVal) (args : list JsVal) : JS JsVal :=
  match f with
  | FRef r => extern_call r args
  | FDispatcher ac => action ← call ac args; dispatch action
  end.
End Store.

(** Modelled from the spec: what the store-connection utility [connect]
    is given, namely a state-mapping function, an action-creator set and
    the view to wrap.  The utility belongs to react-redux and not to this
    repository. *)
Record Connected : Type := mkConnected {
  mapState : JsVal → gmap string JsVal;
  actionCreators : gmap string FunVal;
  view : Instance → JS Node
}.

(** Modelled from the spec: [connect(mapState, actionCreators)(view)],
    the component factory applied to the view. *)
Definition connect (mapState : JsVal → gmap string JsVal)
    (actionCreators : gmap string FunVal) (view : Instance → JS Node)
    : Connected :=
  mkConnected mapState actionCreators view.

(** Modelled from the spec: action binding.  Every supplied action
    creator becomes a dispatcher stored under the creator's own name. *)
Definition bindActionCreators (acs : gmap string FunVal)
    : gmap string JsVal :=
  (λ ac, VFun (FDispatcher ac)) <$> acs.

(** Modelled from the spec: a mounted container.  It keeps the props its
    parent gave it, the props derived from the store state, and the
    dispatchers, which are bound once when the container is created. *)
Record Container : Type := mkContainer {
  ownProps : gmap string JsVal;
  stateProps : gmap string JsVal;
  dispatchProps : gmap string JsVal
}.

(** Modelled from the spec: creating the container.  The state is mapped
    from what the store holds at that moment and the action creators are
    bound. *)
Definition mount (c : Connected) (own : gmap string JsVal)
    (current : JsVal) : Container :=
  {| ownProps := own;
     stateProps := mapState c current;
     dispatchProps := bindActionCreators (actionCreators c) |}.

(** Modelled from the spec: a change notification.  The container reads
    the store's current state and maps it again; nothing else moves. *)
Definition notify (c : Connected) (k : Container) (current : JsVal)
    : Container :=
  {| ownProps := ownProps k;
     stateProps := mapState c current;
     dispatchProps := dispatchProps k |}.

(** Modelled from the spec: a sequence of notifications, each carrying
    the state the store holds when it fires, oldest first. *)
Definition notify_all (c : Connected) (k : Container)
    (changes : list JsVal) : Container :=
  foldl (notify c) k changes.

(** Modelled from the spec: the props computed for the view, the mapped
    state merged with the bound action creators on top of whatever the
    parent passed.  On a name clash the dispatcher wins, then the mapped
    state (the union of maps is left-biased). *)
Definition view_props (k : Container) : gmap string JsVal :=
  dispatchProps k ∪ (stateProps k ∪ ownProps k).

(** Modelled from the spec: rendering the container renders the view
    with the computed props. *)
Definition render_container (c : Connected) (k : Container) : JS Node :=
  view c {| props := VObj (view_props k); state := VNull |}.

End Redux.

(** ** app/src/components/Home/index.jsx *)

Import Js React Redux.

Module Home.

(** The imported form component, used only as an element type. *)
Definition RegistrationForm : ElemType := Component "RegistrationForm".

(** [render] of the class given to React.createClass.  The JSX is a
    nest of createElement calls whose arguments are evaluated left to
    right; whitespace between the tags produces no child. *)
Definition render (this : Instance) : JS Node :=
  h2 ← mret (createElement (Host "h2") None [NText "Welcome."]);
  accountRegister ← get_member (props this) "accountRegister";
  form ← mret (createElement RegistrationForm
                 (Some {[ "accountRegister" := accountRegister ]}) []);
  mret (createElement (Host "div") None [h2; form]).

End Home.

Definition mapStateToProps (state : JsVal) : gmap string JsVal := ∅.

(** [accountActions] is everything exported by the actions/account module,
    a module that is not among the files at hand: it is a parameter here. *)
Definition HomeContainer (accountActions : gmap string FunVal) : Connected :=
  connect mapStateToProps accountActions Home.render.

Definition is_form : ElemType → bool := is_type Home.RegistrationForm.

(** * Properties *)

Section HomeView.
Implicit Types (o : gmap string JsVal) (st : JsVal) (w : World).

(** What [render] evaluates to on a props object: the one tree below,
    in the world it started from. *)
Lemma render_object o st w :
  Home.render (mkInstance (VObj o) st) w =
    (Normal
       (NElem (Host "div") ∅
          [ NElem (Host "h2") ∅ [NText "Welcome."];
            NElem Home.RegistrationForm
              {[ "accountRegister" := js_get o "accountRegister" ]} [] ]),
     w).
Proof. reflexivity. Qed.

(** Without a props object the member read throws and no tree comes
    back: the model does have a failing path. *)
Example render_undefined_props_throws st w :
  ∃ e, Home.render (mkInstance VUndefined st) w = (Throw e, w).
Proof. eexists. reflexivity. Qed.

Example render_null_props_throws st w :
  ∃ e, Home.render (mkInstance VNull st) w = (Throw e, w).
Proof. eexists. reflexivity. Qed.

(** The queries over the rendered tree, evaluated once. *)
Lemma render_headings o st w tree :
  Home.render (mkInstance (VObj o) st) w = (Normal tree, w) →
  elements_where is_heading tree = [NElem (Host "h2") ∅ [NText "Welcome."]].
Proof.
  rewrite render_object. intros [= <-]. reflexivity.
Qed.

Lemma render_forms o st w tree :
  Home.render (mkInstance (VObj o) st) w = (Normal tree, w) →
  elements_where is_form tree =
    [NElem Home.RegistrationForm
       {[ "accountRegister" := js_get o "accountRegister" ]} []].
Proof.
  rewrite render_object. intros [= <-]. reflexivity.
Qed.

End HomeView.

Section StateMapping.

(** C1. [mapStateToProps] returns the empty mapping on every input
    state, whatever its shape, so any two states are mapped to equal
    (empty) objects. *)
Theorem mapStateToProps_empty :
  (∀ s : JsVal, mapStateToProps s = ∅) ∧
  (∀ s1 s2 : JsVal, mapStateToProps s1 = mapStateToProps s2).
Proof. split; intros; reflexivity. Qed.

(** The shapes the claim singles out: null, the empty object, and an
    object nested in an object. *)
Example mapStateToProps_shapes :
  mapStateToProps VNull = ∅ ∧
  mapStateToProps (VObj ∅) = ∅ ∧
  mapStateToProps (VObj {[ "user" := VObj {[ "name" := VStr "ada" ]} ]}) = ∅.
Proof. repeat split. Qed.

End StateMapping.

Section Forwarding.
Implicit Types (o : gmap string JsVal) (st : JsVal) (w : World).

(** C2. When the props object holds a callback [f] under
    accountRegister, [render] returns a tree whose form element has that
    same function reference [f] as its accountRegister prop. *)
Theorem render_forwards_callback o st w (f : FunVal) :
  o !! "accountRegister" = Some (VFun f) →
  ∃ tree form,
    Home.render (mkInstance (VObj o) st) w = (Normal tree, w) ∧
    elements_where is_form tree = [form] ∧
    elem_props form !! "accountRegister" = Some (VFun f).
Proof.
  intros Hf. eexists _, _. split; [apply render_object|].
  split; [reflexivity|]. cbn.
  rewrite lookup_singleton_eq. unfold js_get. now rewrite Hf.
Qed.

Lemma render_forwards_callback_witness :
  ({[ "accountRegister" := VFun (FRef 7); "title" := VStr "home" ]}
     : gmap string JsVal) !! "accountRegister" = Some (VFun (FRef 7)) ∧
  ∃ tree form,
    Home.render
      (mkInstance
         (VObj {[ "accountRegister" := VFun (FRef 7); "title" := VStr "home" ]})
         VNull)
      (mkWorld VNull []) = (Normal tree, mkWorld VNull []) ∧
    elements_where is_form tree = [form] ∧
    elem_props form !! "accountRegister" = Some (VFun (FRef 7)).
Proof.
  split; [reflexivity|].
  apply (render_forwards_callback _ VNull (mkWorld VNull []) (FRef 7)).
  reflexivity.
Defined.

(** C4. When accountRegister is absent from the props object, [render]
    does not throw: it completes normally with the usual tree, and the
    form element receives undefined as its accountRegister prop. *)
Theorem render_without_callback o st w :
  o !! "accountRegister" = None →
  ∃ tree heading form,
    Home.render (mkInstance (VObj o) st) w = (Normal tree, w) ∧
    tree = NElem (Host "div") ∅ [heading; form] ∧
    elements_where is_form tree = [form] ∧
    elem_props form !! "accountRegister" = Some VUndefined.
Proof.
  intros Hf. eexists _, _, _. split; [apply render_object|].
  split; [reflexivity|]. split; [reflexivity|]. cbn.
  rewrite lookup_singleton_eq. unfold js_get. now rewrite Hf.
Qed.

Lemma render_without_callback_witness :
  (∅ : gmap string JsVal) !! "accountRegister" = None ∧
  ∃ tree heading form,
    Home.render (mkInstance (VObj ∅) VNull) (mkWorld VNull []) =
      (Normal tree, mkWorld VNull []) ∧
    tree = NElem (Host "div") ∅ [heading; form] ∧
    elements_where is_form tree = [form] ∧
    elem_props form !! "accountRegister" = Some VUndefined.
Proof.
  split; [reflexivity|].
  apply (render_without_callback ∅ VNull (mkWorld VNull [])).
  reflexivity.
Defined.

(** C7. The form element gets accountRegister and nothing else: the
    props the view passes to it have exactly that one name, and it is
    given no children. *)
Theorem render_form_single_prop o st w :
  ∃ tree form,
    Home.render (mkInstance (VObj o) st) w = (Normal tree, w) ∧
    elements_where is_form tree = [form] ∧
    dom (elem_props form) = {[ "accountRegister" ]} ∧
    (∀ name, name ≠ "accountRegister" → elem_props form !! name = None) ∧
    elem_children form = [].
Proof.
  eexists _, _. split; [apply render_object|].
  split; [reflexivity|]. cbn. split; [apply dom_singleton_L|].
  split; [|reflexivity].
  intros name Hne. now apply lookup_singleton_ne.
Qed.

End Forwarding.

Section Structure.
Implicit Types (o : gmap string JsVal) (st : JsVal) (w : World).

(** C3. For every props object the rendered tree is a single enclosing
    element; the whole tree holds exactly one heading element and exactly
    one form element, and both are children of that enclosing element. *)
Theorem render_one_heading_one_form o st w :
  ∃ tree type attrs children heading form,
    Home.render (mkInstance (VObj o) st) w = (Normal tree, w) ∧
    tree = NElem type attrs children ∧
    elements_where is_heading tree = [heading] ∧
    elements_where is_form tree = [form] ∧
    heading ∈ children ∧ form ∈ children.
Proof.
  eexists _, _, _, _, _, _. split; [apply render_object|].
  split; [reflexivity|]. split; [reflexivity|]. split; [reflexivity|].
  split; [apply list_elem_of_here|].
  apply list_elem_of_further, list_elem_of_here.
Qed.

(** C9. For every props object the heading element reads exactly
    "Welcome." and stands before the form element among the children of
    the enclosing element. *)
Theorem render_heading_text_and_order o st w :
  ∃ tree heading form i j,
    Home.render (mkInstance (VObj o) st) w = (Normal tree, w) ∧
    elements_where is_heading tree = [heading] ∧
    elements_where is_form tree = [form] ∧
    text_content heading = "Welcome." ∧
    elem_children tree !! i = Some heading ∧
    elem_children tree !! j = Some form ∧
    i < j.
Proof.
  exists (NElem (Host "div") ∅
            [ NElem (Host "h2") ∅ [NText "Welcome."];
              NElem Home.RegistrationForm
                {[ "accountRegister" := js_get o "accountRegister" ]} [] ]).
  eexists _, _, 0, 1. split; [apply render_object|].
  repeat split. lia.
Qed.

End Structure.

Section Purity.
Implicit Types (o : gmap string JsVal) (st : JsVal) (w : World).

(** C8. [render] is a function of the props alone and has no effect:
    two renders with equal props complete in the same way with equal
    trees, whatever the instances' internal state and whatever the store
    holds, and each leaves the world exactly as it found it. *)
Theorem render_pure (this1 this2 : Instance) w1 w2 :
  props this1 = props this2 →
  (Home.render this1 w1).1 = (Home.render this2 w2).1 ∧
  (Home.render this1 w1).2 = w1 ∧
  (Home.render this2 w2).2 = w2.
Proof.
  destruct this1 as [p1 s1], this2 as [p2 s2]; cbn [props].
  intros <-. destruct p1; repeat split.
Qed.

Lemma render_pure_witness :
  props (mkInstance (VObj {[ "accountRegister" := VFun (FRef 3) ]}) VNull) =
  props (mkInstance (VObj {[ "accountRegister" := VFun (FRef 3) ]})
           (VObj {[ "visits" := VNum 4 ]})) ∧
  (Home.render
     (mkInstance (VObj {[ "accountRegister" := VFun (FRef 3) ]}) VNull)
     (mkWorld VNull [])).1 =
  (Home.render
     (mkInstance (VObj {[ "accountRegister" := VFun (FRef 3) ]})
        (VObj {[ "visits" := VNum 4 ]}))
     (mkWorld (VObj {[ "user" := VStr "ada" ]}) [VStr "LOGIN"])).1 ∧
  (Home.render
     (mkInstance (VObj {[ "accountRegister" := VFun (FRef 3) ]}) VNull)
     (mkWorld VNull [])).2 = mkWorld VNull [] ∧
  (Home.render
     (mkInstance (VObj {[ "accountRegister" := VFun (FRef 3) ]})
        (VObj {[ "visits" := VNum 4 ]}))
     (mkWorld (VObj {[ "user" := VStr "ada" ]}) [VStr "LOGIN"])).2 =
  mkWorld (VObj {[ "user" := VStr "ada" ]}) [VStr "LOGIN"].
Proof.
  split; [reflexivity|].
  apply (render_pure
           (mkInstance (VObj {[ "accountRegister" := VFun (FRef 3) ]}) VNull)
           (mkInstance (VObj {[ "accountRegister" := VFun (FRef 3) ]})
              (VObj {[ "visits" := VNum 4 ]}))
           (mkWorld VNull [])
           (mkWorld (VObj {[ "user" := VStr "ada" ]}) [VStr "LOGIN"])).
  reflexivity.
Defined.

(** C10. The rendered output depends on the props only through
    accountRegister: two props objects that read the same there give
    equal trees, however they differ on their other fields (and whatever
    the instance state and the store are). *)
Theorem render_only_accountRegister o1 o2 st1 st2 w1 w2 :
  js_get o1 "accountRegister" = js_get o2 "accountRegister" →
  (Home.render (mkInstance (VObj o1) st1) w1).1 =
  (Home.render (mkInstance (VObj o2) st2) w2).1.
Proof.
  intros Heq. rewrite !render_object. cbn [fst]. now rewrite Heq.
Qed.

Lemma render_only_accountRegister_witness :
  js_get {[ "accountRegister" := VFun (FRef 3); "title" := VStr "a" ]}
    "accountRegister" =
  js_get {[ "accountRegister" := VFun (FRef 3); "title" := VStr "b";
            "debug" := VBool true ]}
    "accountRegister" ∧
  (Home.render
     (mkInstance
        (VObj {[ "accountRegister" := VFun (FRef 3); "title" := VStr "a" ]})
        VNull)
     (mkWorld VNull [])).1 =
  (Home.render
     (mkInstance
        (VObj {[ "accountRegister" := VFun (FRef 3); "title" := VStr "b";
                 "debug" := VBool true ]})
        VNull)
     (mkWorld VNull [])).1.
Proof.
  split; [reflexivity|].
  apply (render_only_accountRegister
           {[ "accountRegister" := VFun (FRef 3); "title" := VStr "a" ]}
           {[ "accountRegister" := VFun (FRef 3); "title" := VStr "b";
              "debug" := VBool true ]}
           VNull VNull (mkWorld VNull []) (mkWorld VNull [])).
  reflexivity.
Defined.

End Purity.

Section Container.
Variable accountActions : gmap string FunVal.
Implicit Types (own : gmap string JsVal) (k : Container).
Implicit Types (current : JsVal) (changes : list JsVal).

(** A notification touches neither the bound dispatchers nor the props
    given by the parent, for any connected component. *)
Lemma notify_all_dispatchProps (c : Connected) k changes :
  dispatchProps (notify_all c k changes) = dispatchProps k.
Proof.
  revert k. induction changes as [|s changes IH]; intros k; [reflexivity|].
  unfold notify_all in *. cbn [foldl]. now rewrite IH.
Qed.

Lemma notify_all_ownProps (c : Connected) k changes :
  ownProps (notify_all c k changes) = ownProps k.
Proof.
  revert k. induction changes as [|s changes IH]; intros k; [reflexivity|].
  unfold notify_all in *. cbn [foldl]. now rewrite IH.
Qed.

(** The state-derived props are the image of the last state seen. *)
Lemma notify_all_stateProps (c : Connected) own current changes :
  stateProps (notify_all c (mount c own current) changes) =
  mapState c (default current (last changes)).
Proof.
  unfold notify_all.
  induction changes as [|s changes IH] using rev_ind; [reflexivity|].
  rewrite foldl_app, last_snoc. reflexivity.
Qed.

(** The three facts the container properties rest on, for the Home
    container at any point of its life. *)
Lemma home_stateProps own current changes :
  stateProps
    (notify_all (HomeContainer accountActions)
       (mount (HomeContainer accountActions) own current) changes) = ∅.
Proof. rewrite notify_all_stateProps. reflexivity. Qed.

Lemma home_view_props own current changes :
  view_props
    (notify_all (HomeContainer accountActions)
       (mount (HomeContainer accountActions) own current) changes) =
  view_props (mount (HomeContainer accountActions) own current).
Proof.
  unfold view_props.
  now rewrite home_stateProps, notify_all_dispatchProps, notify_all_ownProps.
Qed.

Lemma home_view_props_lookup own current changes name ac :
  accountActions !! name = Some ac →
  view_props
    (notify_all (HomeContainer accountActions)
       (mount (HomeContainer accountActions) own current) changes) !! name =
  Some (VFun (FDispatcher ac)).
Proof.
  intros Hac. rewrite home_view_props.
  unfold view_props. apply lookup_union_Some_l.
  cbn. unfold bindActionCreators. now rewrite lookup_fmap, Hac.
Qed.

(** C5. Along any sequence of change notifications the props derived
    from the state stay the empty mapping and the dispatchers stay the
    ones bound at creation, so the props handed to the view do not
    change. *)
Theorem container_props_stable own current changes :
  stateProps
    (notify_all (HomeContainer accountActions)
       (mount (HomeContainer accountActions) own current) changes) = ∅ ∧
  dispatchProps
    (notify_all (HomeContainer accountActions)
       (mount (HomeContainer accountActions) own current) changes) =
  dispatchProps (mount (HomeContainer accountActions) own current) ∧
  view_props
    (notify_all (HomeContainer accountActions)
       (mount (HomeContainer accountActions) own current) changes) =
  view_props (mount (HomeContainer accountActions) own current).
Proof.
  split; [apply home_stateProps|].
  split; [apply notify_all_dispatchProps|apply home_view_props].
Qed.

Variable reducer : JsVal → JsVal → JsVal.
Variable extern_call : nat → list JsVal → JS JsVal.

(** C6. Every supplied action creator reaches the view's props under
    its own name as a dispatcher, at creation and after any
    notifications, also when the parent passed a prop of that name;
    calling the dispatcher calls the creator with the same arguments and
    dispatches what it returns.  With name accountRegister this is the
    prop the view forwards. *)
Theorem container_binds_action_creators own current changes name ac :
  accountActions !! name = Some ac →
  view_props
    (notify_all (HomeContainer accountActions)
       (mount (HomeContainer accountActions) own current) changes) !! name =
  Some (VFun (FDispatcher ac)) ∧
  ∀ args,
    call reducer extern_call (FDispatcher ac) args =
    (action ← call reducer extern_call ac args; dispatch reducer action).
Proof.
  intros Hac. split; [|reflexivity].
  now apply home_view_props_lookup.
Qed.

(** The container rendered end to end: the form receives the dispatcher
    bound to the supplied accountRegister action creator. *)
Lemma container_renders_form own current changes ac w :
  accountActions !! "accountRegister" = Some ac →
  ∃ tree form,
    render_container (HomeContainer accountActions)
      (notify_all (HomeContainer accountActions)
         (mount (HomeContainer accountActions) own current) changes) w =
      (Normal tree, w) ∧
    elements_where is_form tree = [form] ∧
    elem_props form !! "accountRegister" = Some (VFun (FDispatcher ac)).
Proof.
  intros Hac. unfold render_container. cbn [view HomeContainer connect].
  eexists _, _. split; [apply render_object|]. split; [reflexivity|].
  cbn. rewrite lookup_singleton_eq. unfold js_get.
  now rewrite (home_view_props_lookup own current changes _ _ Hac).
Qed.

End Container.

(** The binding theorem at a concrete action-creator set: the module
    exports accountRegister and accountLogin, the parent passes a prop
    that clashes with the first, and the store changes twice. *)
Lemma container_binds_action_creators_witness :
  ({[ "accountRegister" := FRef 1; "accountLogin" := FRef 2 ]}
     : gmap string FunVal) !! "accountRegister" = Some (FRef 1) ∧
  view_props
    (notify_all
       (HomeContainer {[ "accountRegister" := FRef 1; "accountLogin" := FRef 2 ]})
       (mount
          (HomeContainer
             {[ "accountRegister" := FRef 1; "accountLogin" := FRef 2 ]})
          {[ "accountRegister" := VStr "from parent" ]} VNull)
       [VObj {[ "user" := VStr "ada" ]}; VNull]) !! "accountRegister" =
  Some (VFun (FDispatcher (FRef 1))) ∧
  ∀ args,
    call (λ s _, s) (λ _ _, mret VUndefined) (FDispatcher (FRef 1)) args =
    (action ← call (λ s _, s) (λ _ _, mret VUndefined) (FRef 1) args;
     dispatch (λ s _, s) action).
Proof.
  split; [reflexivity|].
  apply (container_binds_action_creators
           {[ "accountRegister" := FRef 1; "accountLogin" := FRef 2 ]}
           (λ s _, s) (λ _ _, mret VUndefined)
           {[ "accountRegister" := VStr "from parent" ]} VNull
           [VObj {[ "user" := VStr "ada" ]}; VNull]
           "accountRegister" (FRef 1)).
  reflexivity.
Defined.

(** * Further properties of the view and of the container *)

Section ViewEdges.
Implicit Types (o : gmap string JsVal) (st : JsVal) (w : World).

(** X1. [render] does not inspect what it forwards: whatever the props
    object reads as under accountRegister (a function, null, a string, a
    nested object, or undefined when the field is missing) is the value
    of the form's accountRegister prop, and that prop is all the form
    gets. *)
Theorem render_forwards_any_value o st w :
  ∃ tree form,
    Home.render (mkInstance (VObj o) st) w = (Normal tree, w) ∧
    elements_where is_form tree = [form] ∧
    elem_props form = {[ "accountRegister" := js_get o "accountRegister" ]} ∧
    (∀ v, o !! "accountRegister" = Some v →
          elem_props form !! "accountRegister" = Some v).
Proof.
  eexists _, _. split; [apply render_object|]. split; [reflexivity|].
  split; [reflexivity|]. intros v Hv. cbn.
  rewrite lookup_singleton_eq. unfold js_get. now rewrite Hv.
Qed.

(** The same at values that are not callbacks. *)
Example render_forwards_non_callbacks :
  (Home.render (mkInstance (VObj {[ "accountRegister" := VStr "oops" ]}) VNull)
     (mkWorld VNull [])).1 =
  Normal (NElem (Host "div") ∅
            [ NElem (Host "h2") ∅ [NText "Welcome."];
              NElem Home.RegistrationForm
                {[ "accountRegister" := VStr "oops" ]} [] ]) ∧
  (Home.render (mkInstance (VObj {[ "accountRegister" := VNull ]}) VNull)
     (mkWorld VNull [])).1 =
  Normal (NElem (Host "div") ∅
            [ NElem (Host "h2") ∅ [NText "Welcome."];
              NElem Home.RegistrationForm
                {[ "accountRegister" := VNull ]} [] ]).
Proof. split; reflexivity. Qed.

(** X2. [render] throws exactly when [this.props] is undefined or null:
    the read of accountRegister is the only step that can fail, and on any
    other props value a tree comes back.  Either way the world is left as
    it was. *)
Theorem render_throws_iff (this : Instance) w :
  ((∃ e, (Home.render this w).1 = Throw e) ↔
   (props this = VUndefined ∨ props this = VNull)) ∧
  ((∃ tree, (Home.render this w).1 = Normal tree) ↔
   (props this ≠ VUndefined ∧ props this ≠ VNull)) ∧
  (Home.render this w).2 = w.
Proof.
  destruct this as [p s]; cbn [props].
  destruct p; cbn; (split; [|split; [|reflexivity]]); split;
    try (intros [? [=]]; fail);
    try (intros [[=]|[=]]; fail);
    try (intros _; eauto; fail);
    try (intros _; split; discriminate);
    try (intros [? ?]; congruence).
Qed.


End ViewEdges.

Section ContainerComposition.
Variable accountActions : gmap string FunVal.
Implicit Types (own : gmap string JsVal) (w : World).
Implicit Types (current : JsVal) (changes : list JsVal).

(** X4. The connected Home page shows nothing of the store: rendering
    the container never throws, changes nothing, and gives the same tree
    whatever state the store held at creation and whatever states it went
    through since, because the state mapping is constant and the view
    reads accountRegister only. *)
Theorem container_render_ignores_store
    own current1 current2 changes1 changes2 w1 w2 :
  ∃ tree,
    render_container (HomeContainer accountActions)
      (notify_all (HomeContainer accountActions)
         (mount (HomeContainer accountActions) own current1) changes1) w1 =
      (Normal tree, w1) ∧
    render_container (HomeContainer accountActions)
      (notify_all (HomeContainer accountActions)
         (mount (HomeContainer accountActions) own current2) changes2) w2 =
      (Normal tree, w2).
Proof.
  unfold render_container. cbn [view HomeContainer connect].
  eexists. rewrite !render_object.
  change (connect mapStateToProps accountActions Home.render)
    with (HomeContainer accountActions).
  rewrite !home_view_props. split; reflexivity.
Qed.

(** X5. End to end: when the actions module exports accountRegister, the
    form rendered by the container receives the dispatcher bound to that
    action creator and nothing else, at any point of the container's life,
    also when the parent passes a prop named accountRegister of its own. *)
Theorem container_form_receives_dispatcher own current changes ac w :
  accountActions !! "accountRegister" = Some ac →
  ∃ tree form,
    render_container (HomeContainer accountActions)
      (notify_all (HomeContainer accountActions)
         (mount (HomeContainer accountActions) own current) changes) w =
      (Normal tree, w) ∧
    elements_where is_form tree = [form] ∧
    elem_props form = {[ "accountRegister" := VFun (FDispatcher ac) ]}.
Proof.
  intros Hac. unfold render_container. cbn [view HomeContainer connect].
  eexists _, _. split; [apply render_object|]. split; [reflexivity|].
  cbn. unfold js_get.
  change (connect mapStateToProps accountActions Home.render)
    with (HomeContainer accountActions).
  now rewrite (home_view_props_lookup _ own current changes _ _ Hac).
Qed.

End ContainerComposition.

Lemma container_form_receives_dispatcher_witness :
  ({[ "accountRegister" := FRef 1; "accountLogin" := FRef 2 ]}
     : gmap string FunVal) !! "accountRegister" = Some (FRef 1) ∧
  ∃ tree form,
    render_container
      (HomeContainer {[ "accountRegister" := FRef 1; "accountLogin" := FRef 2 ]})
      (notify_all
         (HomeContainer
            {[ "accountRegister" := FRef 1; "accountLogin" := FRef 2 ]})
         (mount
            (HomeContainer
               {[ "accountRegister" := FRef 1; "accountLogin" := FRef 2 ]})
            {[ "accountRegister" := VStr "from parent" ]} VNull)
         [VObj {[ "user" := VStr "ada" ]}])
      (mkWorld VNull []) = (Normal tree, mkWorld VNull []) ∧
    elements_where is_form tree = [form] ∧
    elem_props form = {[ "accountRegister" := VFun (FDispatcher (FRef 1)) ]}.
Proof.
  split; [reflexivity|].
  apply (container_form_receives_dispatcher
           {[ "accountRegister" := FRef 1; "accountLogin" := FRef 2 ]}
           {[ "accountRegister" := VStr "from parent" ]} VNull
           [VObj {[ "user" := VStr "ada" ]}] (FRef 1) (mkWorld VNull [])).
  reflexivity.
Defined.
